(** * The GDExtension class-registry bridge (class_registry_c.c)

    The C file holds three trampolines that the host engine registers as
    plain function pointers and that hand every call over to a handler
    exported by the Go side ([_cgo_export.h]).

    The C functions are embedded as programs of a small free monad whose
    operations are the effects a C function body in this file could have:
    reading or writing memory through a pointer, [malloc]/[free] (the file
    includes [stdlib.h]) and calling one of the three exported Go
    handlers.  The Go handlers themselves are not part of the C file: they
    are an interface ([GoExports]) every theorem quantifies over. *)

From stdpp Require Import gmap.
From Stdlib Require Import ZArith List Lia.
Import ListNotations.
Local Open Scope Z_scope.

(** ** Data model *)

(** A [void*] is an address; the typedefs of the engine header are opaque
    pointers as well.  [int64_t] is a 64-bit signed integer, carried as a
    [Z] together with its range. *)
Abbreviation ptr := Z (only parsing).
Abbreviation GDExtensionClassInstancePtr := Z (only parsing).
Abbreviation GDExtensionVariantPtr := Z (only parsing).
Abbreviation int64_t := Z (only parsing).

Definition NULL : ptr := 0.
Definition INT64_MIN : Z := - 2 ^ 63.
Definition INT64_MAX : Z := 2 ^ 63 - 1.
Definition int64_range (n : Z) : Prop := INT64_MIN <= n <= INT64_MAX.

(** The world a call runs in: the memory both sides can address, and the
    private state of the Go runtime (class registry, instance table, ...),
    which the C side cannot see and which is left abstract. *)
Record world (G : Type) : Type := World {
  heap : gmap Z Z;
  go_rt : G
}.
Arguments World {G} _ _.
Arguments heap {G} _.
Arguments go_rt {G} _.

Definition set_heap {G} (f : gmap Z Z -> gmap Z Z) (w : world G) : world G :=
  World (f (heap w)) (go_rt w).

(** ** The exported Go handlers *)

(** One constructor per prototype of [_cgo_export.h], indexed by the C
    return type. *)
Inductive goE : Type -> Type :=
| GoCreateInstance (class_userdata : ptr) : goE GDExtensionClassInstancePtr
| GoFreeInstance (class_userdata : ptr) (instance : GDExtensionClassInstancePtr) : goE unit
| GoMethodCall (method_userdata : ptr) (instance : GDExtensionClassInstancePtr)
    (args : ptr) (arg_count : int64_t)
    (ret : GDExtensionVariantPtr) (error : ptr) : goE unit.

(** What an observer at the language boundary sees of a handler call: the
    handler and the parameters, in positional order. *)
Inductive call : Type :=
| CreateInstance (class_userdata : ptr)
| FreeInstance (class_userdata instance : ptr)
| MethodCall (method_userdata instance args : ptr) (arg_count : int64_t)
    (ret error : ptr).

Definition call_of {X} (e : goE X) : call :=
  match e with
  | GoCreateInstance cu => CreateInstance cu
  | GoFreeInstance cu i => FreeInstance cu i
  | GoMethodCall mu i a n r e => MethodCall mu i a n r e
  end.

(** Everything a C function body does that is visible from outside. *)
Inductive action : Type :=
| ALoad (a : ptr)
| AStore (a : ptr) (v : Z)
| AMalloc (a : ptr)
| AFree (a : ptr)
| ACall (c : call).

Definition is_call (a : action) : bool :=
  match a with ACall _ => true | _ => false end.

(** The behaviour of the Go side.  A handler sees the whole world, may
    change it, and may fail ([None]: a panic that takes the process
    down). *)
Class GoExports (G : Type) : Type := {
  go_create_instance_impl :
    ptr -> world G -> option (GDExtensionClassInstancePtr * world G);
  go_free_instance_impl :
    ptr -> GDExtensionClassInstancePtr -> world G -> option (unit * world G);
  go_method_call_impl :
    ptr -> GDExtensionClassInstancePtr -> ptr -> int64_t ->
    GDExtensionVariantPtr -> ptr -> world G -> option (unit * world G)
}.
Arguments go_create_instance_impl {G} _ _ _.
Arguments go_free_instance_impl {G} _ _ _ _.
Arguments go_method_call_impl {G} _ _ _ _ _ _ _ _.

Definition handle {G} (H : GoExports G) {X} (e : goE X) :
  world G -> option (X * world G) :=
  match e in goE X return world G -> option (X * world G) with
  | GoCreateInstance cu => go_create_instance_impl H cu
  | GoFreeInstance cu i => go_free_instance_impl H cu i
  | GoMethodCall mu i a n r e => go_method_call_impl H mu i a n r e
  end.

(** ** C function bodies as programs *)

Inductive cprog (R : Type) : Type :=
| Ret (r : R)
| Load (a : ptr) (k : Z -> cprog R)
| Store (a : ptr) (v : Z) (k : cprog R)
| Malloc (k : ptr -> cprog R)
| Free (a : ptr) (k : cprog R)
| Call (X : Type) (e : goE X) (k : X -> cprog R).
Arguments Ret {R} _.
Arguments Load {R} _ _.
Arguments Store {R} _ _ _.
Arguments Malloc {R} _.
Arguments Free {R} _ _.
Arguments Call {R X} _ _.

Fixpoint bind {A B} (p : cprog A) (f : A -> cprog B) : cprog B :=
  match p with
  | Ret r => f r
  | Load a k => Load a (fun v => bind (k v) f)
  | Store a v k => Store a v (bind k f)
  | Malloc k => Malloc (fun a => bind (k a) f)
  | Free a k => Free a (bind k f)
  | Call e k => Call e (fun x => bind (k x) f)
  end.

Declare Scope cprog_scope.
Delimit Scope cprog_scope with cprog.
Notation "x <- p ;; q" := (bind p (fun x => q))
  (at level 100, p at next level, right associativity) : cprog_scope.
Notation "p ;; q" := (bind p (fun _ => q))
  (at level 100, q at level 200, right associativity) : cprog_scope.
Local Open Scope cprog_scope.

(** How a run ends: normally, with a fault of the C code itself (an access
    through a pointer that is not mapped), or inside a handler. *)
Inductive outcome (G R : Type) : Type :=
| Done (r : R) (w : world G)
| BridgeFault
| HandlerFault.
Arguments Done {G R} _ _.
Arguments BridgeFault {G R}.
Arguments HandlerFault {G R}.

Definition fresh_addr (m : gmap Z Z) : ptr := fresh ({[NULL]} ∪ dom m).

(** [run H p w] executes [p] from [w] against the handlers [H]; it gives
    the actions performed, in order, and the outcome. *)
Fixpoint run {G} (H : GoExports G) {R} (p : cprog R) (w : world G)
  : list action * outcome G R :=
  match p with
  | Ret r => ([], Done r w)
  | Load a k =>
      match heap w !! a with
      | Some v => let (l, o) := run H (k v) w in (ALoad a :: l, o)
      | None => ([ALoad a], BridgeFault)
      end
  | Store a v k =>
      match heap w !! a with
      | Some _ =>
          let (l, o) := run H k (set_heap (insert a v) w) in (AStore a v :: l, o)
      | None => ([AStore a v], BridgeFault)
      end
  | Malloc k =>
      let a := fresh_addr (heap w) in
      let (l, o) := run H (k a) (set_heap (insert a 0) w) in (AMalloc a :: l, o)
  | Free a k =>
      match heap w !! a with
      | Some _ =>
          let (l, o) := run H k (set_heap (delete a) w) in (AFree a :: l, o)
      | None => ([AFree a], BridgeFault)
      end
  | Call e k =>
      match handle H e w with
      | Some (x, w') => let (l, o) := run H (k x) w' in (ACall (call_of e) :: l, o)
      | None => ([ACall (call_of e)], HandlerFault)
      end
  end.

(** ** The prototypes of [_cgo_export.h] *)

Definition go_create_instance (class_userdata : ptr)
  : cprog GDExtensionClassInstancePtr :=
  Call (GoCreateInstance class_userdata) Ret.

Definition go_free_instance (class_userdata : ptr)
  (instance : GDExtensionClassInstancePtr) : cprog unit :=
  Call (GoFreeInstance class_userdata instance) Ret.

Definition go_method_call (method_userdata : ptr)
  (instance : GDExtensionClassInstancePtr) (args : ptr) (arg_count : int64_t)
  (ret : GDExtensionVariantPtr) (error : ptr) : cprog unit :=
  Call (GoMethodCall method_userdata instance args arg_count ret error) Ret.

(** ** The three trampolines of class_registry_c.c *)

(** [return go_create_instance(class_userdata);] *)
Definition c_create_instance_wrapper (class_userdata : ptr)
  : cprog GDExtensionClassInstancePtr :=
  r <- go_create_instance class_userdata ;;
  Ret r.

(** [go_free_instance(class_userdata, instance);] *)
Definition c_free_instance_wrapper (class_userdata : ptr)
  (instance : GDExtensionClassInstancePtr) : cprog unit :=
  go_free_instance class_userdata instance ;;
  Ret tt.

(** [go_method_call(method_userdata, instance, args, arg_count, ret, error);] *)
Definition c_method_call_wrapper (method_userdata : ptr)
  (instance : GDExtensionClassInstancePtr) (args : ptr) (arg_count : int64_t)
  (ret : GDExtensionVariantPtr) (error : ptr) : cprog unit :=
  go_method_call method_userdata instance args arg_count ret error ;;
  Ret tt.

(** ** What the host engine and the Go side each see of a session *)

(** The host engine calls the registered function pointers.  The three
    trampolines have different C return types; [host_call] gives the
    returned instance pointer when there is one. *)
Definition host_call (c : call) : cprog (option ptr) :=
  match c with
  | CreateInstance cu =>
      r <- c_create_instance_wrapper cu ;; Ret (Some r)
  | FreeInstance cu i =>
      c_free_instance_wrapper cu i ;; Ret None
  | MethodCall mu i a n r e =>
      c_method_call_wrapper mu i a n r e ;; Ret None
  end.

Fixpoint host_session (cs : list call) : cprog (list (option ptr)) :=
  match cs with
  | [] => Ret []
  | c :: cs' =>
      r <- host_call c ;;
      rs <- host_session cs' ;;
      Ret (r :: rs)
  end.

(** The same requests served by the handlers alone, without any C code in
    between. *)
Definition serve_call {G} (H : GoExports G) (c : call) (w : world G)
  : option (option ptr * world G) :=
  match c with
  | CreateInstance cu =>
      match go_create_instance_impl H cu w with
      | Some (r, w') => Some (Some r, w')
      | None => None
      end
  | FreeInstance cu i =>
      match go_free_instance_impl H cu i w with
      | Some (_, w') => Some (None, w')
      | None => None
      end
  | MethodCall mu i a n r e =>
      match go_method_call_impl H mu i a n r e w with
      | Some (_, w') => Some (None, w')
      | None => None
      end
  end.

Fixpoint serve {G} (H : GoExports G) (cs : list call) (w : world G)
  : list call * option (list (option ptr) * world G) :=
  match cs with
  | [] => ([], Some ([], w))
  | c :: cs' =>
      match serve_call H c w with
      | Some (r, w') =>
          let (l, o) := serve H cs' w' in
          (c :: l,
           match o with
           | Some (rs, w'') => Some (r :: rs, w'')
           | None => None
           end)
      | None => ([c], None)
      end
  end.

(** The outcome the caller of a trampoline observes when the handler's
    answer is [o]. *)
Definition outcome_of {G R} (o : option (R * world G)) : outcome G R :=
  match o with
  | Some (r, w) => Done r w
  | None => HandlerFault
  end.

(** A program that only returns or calls handlers: no access to memory
    and no allocation anywhere in it. *)
Inductive passthrough {R} : cprog R -> Prop :=
| passthrough_Ret (r : R) : passthrough (Ret r)
| passthrough_Call X (e : goE X) (k : X -> cprog R) :
    (forall x, passthrough (k x)) -> passthrough (Call e k).

(** A concrete Go side, used to run the trampolines on examples.  Its
    private state counts the instances it has handed out; asked for an
    instance it answers with the null sentinel, a method call stores the
    argument count in the return slot and error code 0 in the error
    slot. *)
Definition stub_exports : GoExports nat := {|
  go_create_instance_impl _ w :=
    Some (NULL, World (heap w) (S (go_rt w)));
  go_free_instance_impl _ _ w :=
    Some (tt, World (heap w) (pred (go_rt w)));
  go_method_call_impl _ _ _ n r e w :=
    Some (tt, set_heap (fun m => <[e := 0]> (<[r := n]> m)) w)
|}.

(** A Go side that refuses to work on null handles. *)
Definition strict_exports : GoExports nat := {|
  go_create_instance_impl cu w :=
    if decide (cu = NULL) then None
    else Some (cu + 8, World (heap w) (S (go_rt w)));
  go_free_instance_impl cu i w :=
    if decide (i = NULL) then None
    else Some (tt, World (heap w) (pred (go_rt w)));
  go_method_call_impl mu i a n r e w :=
    if decide (e = NULL) then None
    else Some (tt, set_heap (insert e 1) w)
|}.

Definition w0 : world nat := World ∅ 0%nat.

(** Sequencing of two runs: the second starts where the first ended, and
    a fault ends the whole run. *)
Definition then_run {G A B} (r : list action * outcome G A)
  (f : A -> world G -> list action * outcome G B) : list action * outcome G B :=
  match r with
  | (l, Done a w) => let (l', o) := f a w in (l ++ l', o)
  | (l, BridgeFault) => (l, BridgeFault)
  | (l, HandlerFault) => (l, HandlerFault)
  end.

(** The calls of a session as the actions the bridge performs. *)
Definition calls_as_actions (cs : list call) : list action := map ACall cs.

(** What the caller observes when control is back: the value returned and
    the contents of a memory cell. *)
Definition returned {G R} (o : outcome G R) : option R :=
  match o with
  | Done r _ => Some r
  | _ => None
  end.

Definition cell_after {G R} (o : outcome G R) (a : ptr) : option Z :=
  match o with
  | Done _ w => heap w !! a
  | _ => None
  end.

(** ** The semantics of programs *)

Section Semantics.
Context {G : Type} (H : GoExports G).

Lemma run_bind {A B} (p : cprog A) (f : A -> cprog B) (w : world G) :
  run H (bind p f) w = then_run (run H p w) (fun a w' => run H (f a) w').
Proof.
  revert w.
  induction p as [r | a k IH | a v k IH | k IH | a k IH | X e k IH];
    intros w; simpl.
  - destruct (run H (f r) w); reflexivity.
  - destruct (heap w !! a) as [v|]; [|reflexivity].
    rewrite IH. destruct (run H (k v) w) as [l [x w'| |]]; simpl; try reflexivity.
    destruct (run H (f x) w'); reflexivity.
  - destruct (heap w !! a) as [u|]; [|reflexivity].
    rewrite IH.
    destruct (run H k (set_heap (insert a v) w)) as [l [x w'| |]];
      simpl; try reflexivity.
    destruct (run H (f x) w'); reflexivity.
  - rewrite IH.
    destruct (run H (k (fresh_addr (heap w))) _) as [l [x w'| |]];
      simpl; try reflexivity.
    destruct (run H (f x) w'); reflexivity.
  - destruct (heap w !! a) as [u|]; [|reflexivity].
    rewrite IH.
    destruct (run H k (set_heap (delete a) w)) as [l [x w'| |]];
      simpl; try reflexivity.
    destruct (run H (f x) w'); reflexivity.
  - destruct (handle H e w) as [[x w']|]; [|reflexivity].
    rewrite IH. destruct (run H (k x) w') as [l [y w''| |]]; simpl; try reflexivity.
    destruct (run H (f y) w''); reflexivity.
Qed.

(** A single handler call followed by a return. *)
Lemma run_call_ret {X} (e : goE X) (w : world G) :
  run H (Call e Ret) w = ([ACall (call_of e)], outcome_of (handle H e w)).
Proof.
  simpl. destruct (handle H e w) as [[x w']|]; reflexivity.
Qed.

Lemma run_c_create_instance_wrapper cu w :
  run H (c_create_instance_wrapper cu) w =
  ([ACall (CreateInstance cu)], outcome_of (go_create_instance_impl H cu w)).
Proof. exact (run_call_ret (GoCreateInstance cu) w). Qed.

Lemma run_c_free_instance_wrapper cu i w :
  run H (c_free_instance_wrapper cu i) w =
  ([ACall (FreeInstance cu i)], outcome_of (go_free_instance_impl H cu i w)).
Proof.
  unfold c_free_instance_wrapper, go_free_instance. simpl.
  destruct (go_free_instance_impl H cu i w) as [[[] w']|]; reflexivity.
Qed.

Lemma run_c_method_call_wrapper mu i a n r e w :
  run H (c_method_call_wrapper mu i a n r e) w =
  ([ACall (MethodCall mu i a n r e)],
   outcome_of (go_method_call_impl H mu i a n r e w)).
Proof.
  unfold c_method_call_wrapper, go_method_call. simpl.
  destruct (go_method_call_impl H mu i a n r e w) as [[[] w']|]; reflexivity.
Qed.

(** Pass-through programs stay pass-through under sequencing. *)
Lemma passthrough_bind {A B} (p : cprog A) (f : A -> cprog B) :
  passthrough p -> (forall a, passthrough (f a)) -> passthrough (bind p f).
Proof.
  intros Hp Hf. induction Hp as [r | X e k _ IH]; simpl.
  - apply Hf.
  - constructor. exact IH.
Qed.

(** A pass-through program performs handler calls only, and never
    faults on its own. *)
Lemma passthrough_run_calls {R} (p : cprog R) :
  passthrough p -> forall w, forallb is_call (fst (run H p w)) = true.
Proof.
  induction 1 as [r | X e k _ IH]; intros w; simpl; [reflexivity|].
  destruct (handle H e w) as [[x w']|]; [|reflexivity].
  specialize (IH x w'). destruct (run H (k x) w'); simpl in *. exact IH.
Qed.

Lemma passthrough_run_no_fault {R} (p : cprog R) :
  passthrough p -> forall w, snd (run H p w) <> BridgeFault.
Proof.
  induction 1 as [r | X e k _ IH]; intros w; simpl; [discriminate|].
  destruct (handle H e w) as [[x w']|]; [|discriminate].
  specialize (IH x w'). destruct (run H (k x) w'); simpl in *. exact IH.
Qed.

(** Whatever the handlers keep invariant, a pass-through program keeps
    invariant: it adds no effect of its own. *)
Lemma passthrough_run_invariant {R} (I : world G -> Prop) (p : cprog R) :
  (forall X (e : goE X) w x w', I w -> handle H e w = Some (x, w') -> I w') ->
  passthrough p ->
  forall w r w', I w -> snd (run H p w) = Done r w' -> I w'.
Proof.
  intros HI Hp. induction Hp as [r0 | X e k _ IH]; intros w r w' Hw; simpl.
  - intros [= _ <-]. exact Hw.
  - destruct (handle H e w) as [[x w1]|] eqn:He; [|discriminate].
    specialize (IH x w1 r w' (HI _ e w x w1 Hw He)).
    destruct (run H (k x) w1); simpl in *. exact IH.
Qed.
End Semantics.

Lemma passthrough_c_create_instance_wrapper cu :
  passthrough (c_create_instance_wrapper cu).
Proof. repeat constructor. Qed.

Lemma passthrough_c_free_instance_wrapper cu i :
  passthrough (c_free_instance_wrapper cu i).
Proof. repeat constructor. Qed.

Lemma passthrough_c_method_call_wrapper mu i a n r e :
  passthrough (c_method_call_wrapper mu i a n r e).
Proof. repeat constructor. Qed.

Lemma passthrough_host_call c : passthrough (host_call c).
Proof. destruct c; repeat constructor. Qed.

Lemma passthrough_host_session cs : passthrough (host_session cs).
Proof.
  induction cs as [|c cs IH]; simpl; [constructor|].
  apply passthrough_bind; [apply passthrough_host_call|].
  intros r. apply passthrough_bind; [exact IH|]. intros rs. constructor.
Qed.

(** One call through the bridge is one call served by the handler. *)
Lemma run_host_call {G} (H : GoExports G) (c : call) (w : world G) :
  run H (host_call c) w = ([ACall c], outcome_of (serve_call H c w)).
Proof.
  destruct c as [cu | cu i | mu i a n r e]; simpl.
  - destruct (go_create_instance_impl H cu w) as [[x w']|]; reflexivity.
  - destruct (go_free_instance_impl H cu i w) as [[[] w']|]; reflexivity.
  - destruct (go_method_call_impl H mu i a n r e w) as [[[] w']|]; reflexivity.
Qed.

(** A whole session through the bridge is the session served by the
    handlers alone. *)
Lemma run_host_session {G} (H : GoExports G) (cs : list call) (w : world G) :
  run H (host_session cs) w =
  (calls_as_actions (fst (serve H cs w)), outcome_of (snd (serve H cs w))).
Proof.
  revert w. induction cs as [|c cs IH]; intros w; [reflexivity|].
  cbn [host_session]. rewrite run_bind, run_host_call.
  cbn [serve]. destruct (serve_call H c w) as [[r w']|]; [|reflexivity].
  cbn [outcome_of then_run]. rewrite run_bind, IH.
  destruct (serve H cs w') as [l [[rs w'']|]]; simpl; [|reflexivity].
  rewrite app_nil_r. reflexivity.
Qed.

(** ** The forwarding contract *)

(** C1. Whatever the handlers do and whatever the world is, a run of each
    trampoline performs exactly one action, the call of its own handler,
    and that call carries the parameters the trampoline received, each at
    the position it was received at. *)
Theorem trampolines_forward_exactly_once {G} (H : GoExports G) (w : world G) :
  (forall cu,
      fst (run H (c_create_instance_wrapper cu) w) = [ACall (CreateInstance cu)]) /\
  (forall cu i,
      fst (run H (c_free_instance_wrapper cu i) w) = [ACall (FreeInstance cu i)]) /\
  (forall mu i a n r e,
      fst (run H (c_method_call_wrapper mu i a n r e) w) =
      [ACall (MethodCall mu i a n r e)]).
Proof.
  split; [|split]; intros.
  - rewrite run_c_create_instance_wrapper. reflexivity.
  - rewrite run_c_free_instance_wrapper. reflexivity.
  - rewrite run_c_method_call_wrapper. reflexivity.
Qed.

(** C2. The create-instance trampoline hands back what the handler
    answered for the same class user-data pointer in the same world, be it
    an instance, the null sentinel or a failure: the value is neither
    checked nor changed, and neither is the input. *)
Theorem create_instance_returns_handler_result {G} (H : GoExports G)
  (cu : ptr) (w : world G) :
  snd (run H (c_create_instance_wrapper cu) w) =
    outcome_of (go_create_instance_impl H cu w) /\
  returned (snd (run H (c_create_instance_wrapper cu) w)) =
    fst <$> go_create_instance_impl H cu w.
Proof.
  rewrite run_c_create_instance_wrapper. simpl. split; [reflexivity|].
  destruct (go_create_instance_impl H cu w) as [[r w']|]; reflexivity.
Qed.

(** The null sentinel of a handler reaches the caller as it is. *)
Example create_instance_null_sentinel :
  run stub_exports (c_create_instance_wrapper 4096) w0 =
  ([ACall (CreateInstance 4096)], Done NULL (World ∅ 1%nat)).
Proof. reflexivity. Qed.

(** C3. The method-call trampoline passes the argument array and the
    count on as they are; the world the caller finds afterwards is the one
    the handler left, so every cell, the return slot and the error slot
    among them, holds what the handler wrote; and the trampoline stores
    nothing into either slot. *)
Theorem method_call_outputs_unbuffered {G} (H : GoExports G)
  (mu i a : ptr) (n : Z) (r e : ptr) (w : world G) :
  fst (run H (c_method_call_wrapper mu i a n r e) w) =
    [ACall (MethodCall mu i a n r e)] /\
  snd (run H (c_method_call_wrapper mu i a n r e) w) =
    outcome_of (go_method_call_impl H mu i a n r e w) /\
  cell_after (snd (run H (c_method_call_wrapper mu i a n r e) w)) r =
    cell_after (outcome_of (go_method_call_impl H mu i a n r e w)) r /\
  cell_after (snd (run H (c_method_call_wrapper mu i a n r e) w)) e =
    cell_after (outcome_of (go_method_call_impl H mu i a n r e w)) e /\
  (forall v,
      ~ In (AStore r v) (fst (run H (c_method_call_wrapper mu i a n r e) w)) /\
      ~ In (AStore e v) (fst (run H (c_method_call_wrapper mu i a n r e) w))).
Proof.
  rewrite run_c_method_call_wrapper. simpl.
  repeat split; try reflexivity; intros [Hin | []]; discriminate Hin.
Qed.

(** C4. The free-instance trampoline returns nothing (its result type is
    [unit]) and its run is one call of the free handler, with the class
    user-data pointer and the instance pointer it was given. *)
Theorem free_instance_forwards_once {G} (H : GoExports G)
  (cu i : ptr) (w : world G) :
  run H (c_free_instance_wrapper cu i) w =
    ([ACall (FreeInstance cu i)], outcome_of (go_free_instance_impl H cu i w)) /\
  length (fst (run H (c_free_instance_wrapper cu i) w)) = 1%nat.
Proof.
  rewrite run_c_free_instance_wrapper. split; reflexivity.
Qed.

(** C5. The bridge is a stateless pass-through.  No trampoline contains a
    load, a store, an allocation or a release; so a session of any length
    through the bridge performs handler calls only and never faults in the
    C code.  And the bridge keeps nothing between calls: a session through
    the bridge is, call by call and world by world, the session the
    handlers serve when called directly, so that what a call does depends
    on the earlier ones only through the world the handlers left. *)
Theorem bridge_stateless_passthrough :
  (forall cu, passthrough (c_create_instance_wrapper cu)) /\
  (forall cu i, passthrough (c_free_instance_wrapper cu i)) /\
  (forall mu i a n r e, passthrough (c_method_call_wrapper mu i a n r e)) /\
  (forall G (H : GoExports G) (cs : list call) (w : world G),
      forallb is_call (fst (run H (host_session cs) w)) = true /\
      snd (run H (host_session cs) w) <> BridgeFault /\
      run H (host_session cs) w =
        (calls_as_actions (fst (serve H cs w)), outcome_of (snd (serve H cs w)))).
Proof.
  split; [exact passthrough_c_create_instance_wrapper|].
  split; [exact passthrough_c_free_instance_wrapper|].
  split; [exact passthrough_c_method_call_wrapper|].
  intros G H cs w. split; [|split].
  - apply passthrough_run_calls, passthrough_host_session.
  - apply passthrough_run_no_fault, passthrough_host_session.
  - apply run_host_session.
Qed.

(** A session in which the second call fails inside the handler: the
    bridge reports the two calls it forwarded and nothing else. *)
Example host_session_strict :
  run strict_exports
      (host_session [CreateInstance 1; FreeInstance 1 NULL; CreateInstance 3]) w0 =
  ([ACall (CreateInstance 1); ACall (FreeInstance 1 NULL)], HandlerFault).
Proof. reflexivity. Qed.

(** C6. A method call with no arguments and a null argument array,
    against a handler that stores error code 0 in the error slot: the run
    is the one call, with the null array and the count 0 as given, it ends
    normally, and the caller reads 0 from the error slot. *)
Theorem method_call_no_args_error_zero {G} (H : GoExports G)
  (mu i r e : ptr) (w w' : world G) :
  go_method_call_impl H mu i NULL 0 r e w = Some (tt, w') ->
  heap w' !! e = Some 0 ->
  run H (c_method_call_wrapper mu i NULL 0 r e) w =
    ([ACall (MethodCall mu i NULL 0 r e)], Done tt w') /\
  cell_after (snd (run H (c_method_call_wrapper mu i NULL 0 r e) w)) e = Some 0.
Proof.
  intros Hh He. rewrite run_c_method_call_wrapper, Hh. simpl.
  split; [reflexivity | exact He].
Qed.

Lemma method_call_no_args_error_zero_witness :
  run stub_exports (c_method_call_wrapper 4096 4104 NULL 0 8192 8200) w0 =
    ([ACall (MethodCall 4096 4104 NULL 0 8192 8200)],
     Done tt (set_heap (fun m => <[8200 := 0]> (<[8192 := 0]> m)) w0)) /\
  cell_after
    (snd (run stub_exports (c_method_call_wrapper 4096 4104 NULL 0 8192 8200) w0))
    8200 = Some 0.
Proof.
  apply (method_call_no_args_error_zero stub_exports 4096 4104 8192 8200 w0
           (set_heap (fun m => <[8200 := 0]> (<[8192 := 0]> m)) w0)).
  - reflexivity.
  - vm_compute. reflexivity.
Defined.

(** C7. The bridge has no error of its own and looks at none.  The error
    pointer the method-call trampoline receives is the sixth parameter of
    the one handler call; the trampoline does not load from it, so what
    the error slot holds beforehand has no influence on what the
    trampoline does; and no trampoline contains a load or ends in a fault
    of the C code: a run ends normally or inside the handler. *)
Theorem error_pointer_passed_through {G} (H : GoExports G)
  (mu i a : ptr) (n : Z) (r e : ptr) (w : world G) :
  fst (run H (c_method_call_wrapper mu i a n r e) w) =
    [ACall (MethodCall mu i a n r e)] /\
  (forall v, ~ In (ALoad e) (fst (run H (c_method_call_wrapper mu i a n r e)
                                   (set_heap (insert e v) w)))) /\
  (forall v, fst (run H (c_method_call_wrapper mu i a n r e)
                    (set_heap (insert e v) w)) =
             fst (run H (c_method_call_wrapper mu i a n r e) w)) /\
  snd (run H (c_method_call_wrapper mu i a n r e) w) <> BridgeFault /\
  (forall cu, snd (run H (c_create_instance_wrapper cu) w) <> BridgeFault) /\
  (forall cu, snd (run H (c_free_instance_wrapper cu i) w) <> BridgeFault).
Proof.
  split; [rewrite run_c_method_call_wrapper; reflexivity|].
  split.
  { intros v. rewrite run_c_method_call_wrapper. simpl.
    intros [Hin | []]. discriminate Hin. }
  split; [intros v; rewrite !run_c_method_call_wrapper; reflexivity|].
  split; [apply passthrough_run_no_fault, passthrough_c_method_call_wrapper|].
  split; intros cu; apply passthrough_run_no_fault.
  - apply passthrough_c_create_instance_wrapper.
  - apply passthrough_c_free_instance_wrapper.
Qed.

(** C8. The argument count is not checked: for every 64-bit signed value,
    negative ones included and whatever the length of the argument array,
    the run is the one handler call with that very count, and it ends the
    way the handler ends on it. *)
Theorem arg_count_forwarded_unchecked {G} (H : GoExports G)
  (mu i a : ptr) (n : Z) (r e : ptr) (w : world G) :
  int64_range n ->
  run H (c_method_call_wrapper mu i a n r e) w =
    ([ACall (MethodCall mu i a n r e)],
     outcome_of (go_method_call_impl H mu i a n r e w)) /\
  snd (run H (c_method_call_wrapper mu i a n r e) w) <> BridgeFault.
Proof.
  intros _. split; [apply run_c_method_call_wrapper|].
  apply passthrough_run_no_fault, passthrough_c_method_call_wrapper.
Qed.

Lemma arg_count_forwarded_unchecked_witness :
  run stub_exports (c_method_call_wrapper 4096 4104 NULL INT64_MIN 8192 8200) w0 =
    ([ACall (MethodCall 4096 4104 NULL INT64_MIN 8192 8200)],
     outcome_of (go_method_call_impl stub_exports 4096 4104 NULL INT64_MIN 8192 8200 w0)) /\
  snd (run stub_exports
         (c_method_call_wrapper 4096 4104 NULL INT64_MIN 8192 8200) w0)
    <> BridgeFault.
Proof.
  apply (arg_count_forwarded_unchecked stub_exports
           4096 4104 NULL INT64_MIN 8192 8200 w0).
  unfold int64_range, INT64_MIN, INT64_MAX. lia.
Defined.

(** The stub handler stores the count it was given in the return slot:
    the most negative count arrives there. *)
Example arg_count_negative_reaches_handler :
  cell_after
    (snd (run stub_exports
            (c_method_call_wrapper 4096 4104 NULL INT64_MIN 8192 8200) w0))
    8192 = Some (- 9223372036854775808).
Proof. vm_compute. reflexivity. Qed.

(** C9. Null pointers are passed on like any other pointer value.  For
    all pointer parameters, hence with any of them null, a run of a
    trampoline is never a fault of the C code, and it ends normally
    exactly when the handler answers; with every pointer null the one
    call carries the nulls. *)
Theorem null_pointers_pass_through {G} (H : GoExports G) (w : world G) :
  (forall cu,
      snd (run H (c_create_instance_wrapper cu) w) <> BridgeFault /\
      (is_Some (returned (snd (run H (c_create_instance_wrapper cu) w))) <->
       is_Some (go_create_instance_impl H cu w))) /\
  (forall cu i,
      snd (run H (c_free_instance_wrapper cu i) w) <> BridgeFault /\
      (is_Some (returned (snd (run H (c_free_instance_wrapper cu i) w))) <->
       is_Some (go_free_instance_impl H cu i w))) /\
  (forall mu i a n r e,
      snd (run H (c_method_call_wrapper mu i a n r e) w) <> BridgeFault /\
      (is_Some (returned (snd (run H (c_method_call_wrapper mu i a n r e) w))) <->
       is_Some (go_method_call_impl H mu i a n r e w))) /\
  run H (c_create_instance_wrapper NULL) w =
    ([ACall (CreateInstance NULL)], outcome_of (go_create_instance_impl H NULL w)) /\
  run H (c_free_instance_wrapper NULL NULL) w =
    ([ACall (FreeInstance NULL NULL)],
     outcome_of (go_free_instance_impl H NULL NULL w)) /\
  (forall n,
      run H (c_method_call_wrapper NULL NULL NULL n NULL NULL) w =
        ([ACall (MethodCall NULL NULL NULL n NULL NULL)],
         outcome_of (go_method_call_impl H NULL NULL NULL n NULL NULL w))).
Proof.
  assert (Hsome : forall R (o : option (R * world G)),
             is_Some (returned (outcome_of o)) <-> is_Some o).
  { intros R [[x w']|]; simpl; split; intros [y Hy]; try discriminate Hy; eauto. }
  repeat split.
  - apply passthrough_run_no_fault, passthrough_c_create_instance_wrapper.
  - rewrite run_c_create_instance_wrapper. apply Hsome.
  - rewrite run_c_create_instance_wrapper. apply Hsome.
  - apply passthrough_run_no_fault, passthrough_c_free_instance_wrapper.
  - rewrite run_c_free_instance_wrapper. apply Hsome.
  - rewrite run_c_free_instance_wrapper. apply Hsome.
  - apply passthrough_run_no_fault, passthrough_c_method_call_wrapper.
  - rewrite run_c_method_call_wrapper. apply Hsome.
  - rewrite run_c_method_call_wrapper. apply Hsome.
  - apply run_c_create_instance_wrapper.
  - apply run_c_free_instance_wrapper.
  - intros n. apply run_c_method_call_wrapper.
Qed.

(** With a handler that refuses null handles, the failure is the
    handler's, not the bridge's. *)
Example null_instance_strict_handler :
  run strict_exports (c_free_instance_wrapper 4096 NULL) w0 =
  ([ACall (FreeInstance 4096 NULL)], HandlerFault).
Proof. reflexivity. Qed.

(** C10. Two runs of the same trampoline with the same parameters, in
    possibly different worlds and against possibly different handler
    tables.  The call sequence of both is the same single call in any
    case; when the handler returns the same value in both runs, so does
    the trampoline; and when the handler answers alike altogether (same
    value, same world left behind), the two runs are equal. *)
Theorem trampolines_deterministic_two_runs {G} (H1 H2 : GoExports G)
  (w1 w2 : world G) :
  (forall cu,
      fst (run H1 (c_create_instance_wrapper cu) w1) =
        fst (run H2 (c_create_instance_wrapper cu) w2) /\
      (fst <$> go_create_instance_impl H1 cu w1 =
         fst <$> go_create_instance_impl H2 cu w2 ->
       returned (snd (run H1 (c_create_instance_wrapper cu) w1)) =
         returned (snd (run H2 (c_create_instance_wrapper cu) w2))) /\
      (go_create_instance_impl H1 cu w1 = go_create_instance_impl H2 cu w2 ->
       run H1 (c_create_instance_wrapper cu) w1 =
         run H2 (c_create_instance_wrapper cu) w2)) /\
  (forall cu i,
      fst (run H1 (c_free_instance_wrapper cu i) w1) =
        fst (run H2 (c_free_instance_wrapper cu i) w2) /\
      (go_free_instance_impl H1 cu i w1 = go_free_instance_impl H2 cu i w2 ->
       run H1 (c_free_instance_wrapper cu i) w1 =
         run H2 (c_free_instance_wrapper cu i) w2)) /\
  (forall mu i a n r e,
      fst (run H1 (c_method_call_wrapper mu i a n r e) w1) =
        fst (run H2 (c_method_call_wrapper mu i a n r e) w2) /\
      (go_method_call_impl H1 mu i a n r e w1 =
         go_method_call_impl H2 mu i a n r e w2 ->
       run H1 (c_method_call_wrapper mu i a n r e) w1 =
         run H2 (c_method_call_wrapper mu i a n r e) w2)).
Proof.
  split; [|split].
  - intros cu. rewrite !run_c_create_instance_wrapper. simpl.
    split; [reflexivity|]. split.
    + destruct (go_create_instance_impl H1 cu w1) as [[x1 v1]|],
        (go_create_instance_impl H2 cu w2) as [[x2 v2]|];
        simpl; intros Hret; congruence.
    + intros ->. reflexivity.
  - intros cu i. rewrite !run_c_free_instance_wrapper. simpl.
    split; [reflexivity|]. intros ->. reflexivity.
  - intros mu i a n r e. rewrite !run_c_method_call_wrapper. simpl.
    split; [reflexivity|]. intros ->. reflexivity.
Qed.

Lemma trampolines_deterministic_two_runs_witness :
  run stub_exports (c_free_instance_wrapper 4096 4104) w0 =
    run strict_exports (c_free_instance_wrapper 4096 4104) (World ∅ 1%nat) /\
  returned (snd (run stub_exports (c_create_instance_wrapper NULL) w0)) =
    returned (snd (run stub_exports (c_create_instance_wrapper NULL)
                     (World ∅ 7%nat))).
Proof.
  split.
  - apply (proj2 (proj1 (proj2 (trampolines_deterministic_two_runs
                                  stub_exports strict_exports w0 (World ∅ 1%nat)))
                    4096 4104)).
    reflexivity.
  - apply (proj1 (proj2 (proj1 (trampolines_deterministic_two_runs
                                  stub_exports stub_exports w0 (World ∅ 7%nat))
                           NULL))).
    reflexivity.
Defined.

(** ** Sessions: how calls through the bridge compose *)

(** A session served to the end answers every request, in order. *)
Lemma serve_complete {G} (H : GoExports G) (cs : list call) (w : world G)
  (rs : list (option ptr)) (w' : world G) :
  snd (serve H cs w) = Some (rs, w') ->
  fst (serve H cs w) = cs /\ length rs = length cs.
Proof.
  revert w rs w'. induction cs as [|c cs IH]; intros w rs w'; simpl.
  - intros [= <- _]. split; reflexivity.
  - destruct (serve_call H c w) as [[r w1]|]; [|discriminate].
    specialize (IH w1).
    destruct (serve H cs w1) as [l [[rs1 w2]|]]; simpl in *; [|discriminate].
    intros [= <- _]. destruct (IH rs1 w2 eq_refl) as [-> Hlen].
    simpl. split; [reflexivity | f_equal; exact Hlen].
Qed.

(** The requests that reach the handlers are always an initial part of
    the requests made; a proper part only when a handler failed. *)
Lemma serve_prefix {G} (H : GoExports G) (cs : list call) (w : world G) :
  exists k : nat,
    (k <= length cs)%nat /\
    fst (serve H cs w) = take k cs /\
    (snd (serve H cs w) = None \/ k = length cs).
Proof.
  revert w. induction cs as [|c cs IH]; intros w; simpl.
  - exists 0%nat. repeat split; auto.
  - destruct (serve_call H c w) as [[r w1]|].
    + destruct (IH w1) as (k & Hk & Hl & Hend).
      destruct (serve H cs w1) as [l o]; simpl in *. subst l.
      exists (S k). split; [lia|]. split; [reflexivity|].
      destruct Hend as [-> | ->]; [left; reflexivity | right; reflexivity].
    + exists 1%nat. split; [simpl; lia|]. split; [reflexivity | left; reflexivity].
Qed.

(** X1. Whatever property of the world the three handlers keep, every
    session of calls through the trampolines keeps: the bridge adds no
    effect that could break it. *)
Theorem session_preserves_handler_invariant {G} (H : GoExports G)
  (I : world G -> Prop) (cs : list call) (w : world G)
  (rs : list (option ptr)) (w' : world G) :
  (forall cu w1 x w2,
      I w1 -> go_create_instance_impl H cu w1 = Some (x, w2) -> I w2) ->
  (forall cu i w1 x w2,
      I w1 -> go_free_instance_impl H cu i w1 = Some (x, w2) -> I w2) ->
  (forall mu i a n r e w1 x w2,
      I w1 -> go_method_call_impl H mu i a n r e w1 = Some (x, w2) -> I w2) ->
  I w ->
  snd (run H (host_session cs) w) = Done rs w' ->
  I w'.
Proof.
  intros Hc Hf Hm Hw Hrun.
  apply (passthrough_run_invariant H I (host_session cs)) with (w := w) (r := rs);
    [ | apply passthrough_host_session | exact Hw | exact Hrun ].
  intros X e w1 x w2 Hw1 He. destruct e; simpl in He; eauto.
Qed.

Lemma session_preserves_handler_invariant_witness :
  heap (World (<[8200 := 1]> ∅) 0%nat) !! NULL = None.
Proof.
  apply (session_preserves_handler_invariant strict_exports
           (fun w => heap w !! NULL = None)
           [CreateInstance 4096; MethodCall 4096 4104 NULL 0 8192 8200;
            FreeInstance 4096 4104]
           w0 [Some 4104; None; None] (World (<[8200 := 1]> ∅) 0%nat)).
  - intros cu w1 x w2 Hw1. simpl. case_decide; [discriminate|].
    intros [= _ <-]. exact Hw1.
  - intros cu i w1 x w2 Hw1. simpl. case_decide; [discriminate|].
    intros [= _ <-]. exact Hw1.
  - intros mu i a n r e w1 x w2 Hw1. simpl. case_decide as Hne; [discriminate|].
    intros [= _ <-]. simpl. rewrite lookup_insert_ne by exact Hne. exact Hw1.
  - reflexivity.
  - vm_compute. reflexivity.
Defined.

(** X2. A session that runs to its end has called the handlers once per
    request, in the order of the requests, and hands back one result per
    request. *)
Theorem session_complete_calls_in_order {G} (H : GoExports G)
  (cs : list call) (w : world G) (rs : list (option ptr)) (w' : world G) :
  snd (run H (host_session cs) w) = Done rs w' ->
  fst (run H (host_session cs) w) = map ACall cs /\
  length rs = length cs.
Proof.
  rewrite run_host_session. simpl. intros Hdone.
  destruct (snd (serve H cs w)) as [[rs1 w1]|] eqn:Hs; [|discriminate].
  simpl in Hdone. injection Hdone as <- <-.
  destruct (serve_complete H cs w rs1 w1 Hs) as [-> Hlen].
  split; [reflexivity | exact Hlen].
Qed.

Lemma session_complete_calls_in_order_witness :
  fst (run stub_exports
         (host_session [CreateInstance 4096;
                        MethodCall 4096 NULL NULL (-1) 8192 8200;
                        FreeInstance 4096 NULL]) w0) =
    map ACall [CreateInstance 4096;
               MethodCall 4096 NULL NULL (-1) 8192 8200;
               FreeInstance 4096 NULL] /\
  length [Some NULL; None; None] =
    length [CreateInstance 4096;
            MethodCall 4096 NULL NULL (-1) 8192 8200;
            FreeInstance 4096 NULL].
Proof.
  apply (session_complete_calls_in_order stub_exports
           [CreateInstance 4096; MethodCall 4096 NULL NULL (-1) 8192 8200;
            FreeInstance 4096 NULL]
           w0 [Some NULL; None; None]
           (World (<[8200 := 0]> (<[8192 := -1]> ∅)) 0%nat)).
  vm_compute. reflexivity.
Defined.

(** X3. Whether or not a handler fails, the handler calls of a session
    are an initial part of the requests, in their order: the bridge never
    reorders, repeats, drops from the middle or invents a call.  The part
    is proper only when the session ended inside a handler. *)
Theorem session_calls_are_prefix {G} (H : GoExports G)
  (cs : list call) (w : world G) :
  exists k : nat,
    (k <= length cs)%nat /\
    fst (run H (host_session cs) w) = map ACall (take k cs) /\
    (snd (run H (host_session cs) w) = HandlerFault \/ k = length cs).
Proof.
  destruct (serve_prefix H cs w) as (k & Hk & Hl & Hend).
  exists k. rewrite run_host_session. simpl. rewrite Hl.
  split; [exact Hk|]. split; [reflexivity|].
  destruct Hend as [-> | ->]; [left; reflexivity | right; reflexivity].
Qed.

(** X4. The life of one instance driven through the bridge: the pointer
    the create trampoline returns is the pointer the method-call and free
    trampolines deliver to their handlers, each handler starts in the
    world the previous one left, and the caller ends up with that pointer
    and the world the free handler left. *)
Theorem instance_lifecycle_threads_pointer {G} (H : GoExports G)
  (cu mu a : ptr) (n : Z) (r e : ptr) (i : ptr) (w w1 w2 w3 : world G) :
  go_create_instance_impl H cu w = Some (i, w1) ->
  go_method_call_impl H mu i a n r e w1 = Some (tt, w2) ->
  go_free_instance_impl H cu i w2 = Some (tt, w3) ->
  run H (instance <- c_create_instance_wrapper cu ;;
         c_method_call_wrapper mu instance a n r e ;;
         c_free_instance_wrapper cu instance ;;
         Ret instance) w =
  ([ACall (CreateInstance cu); ACall (MethodCall mu i a n r e);
    ACall (FreeInstance cu i)],
   Done i w3).
Proof.
  intros Hc Hm Hf.
  rewrite run_bind, run_c_create_instance_wrapper, Hc. cbn [outcome_of then_run].
  rewrite run_bind, run_c_method_call_wrapper, Hm. cbn [outcome_of then_run].
  rewrite run_bind, run_c_free_instance_wrapper, Hf. reflexivity.
Qed.

Lemma instance_lifecycle_threads_pointer_witness :
  run strict_exports
      (instance <- c_create_instance_wrapper 4096 ;;
       c_method_call_wrapper 4096 instance NULL 0 8192 8200 ;;
       c_free_instance_wrapper 4096 instance ;;
       Ret instance) w0 =
  ([ACall (CreateInstance 4096); ACall (MethodCall 4096 4104 NULL 0 8192 8200);
    ACall (FreeInstance 4096 4104)],
   Done 4104 (World (<[8200 := 1]> ∅) 0%nat)).
Proof.
  apply (instance_lifecycle_threads_pointer strict_exports
           4096 4096 NULL 0 8192 8200 4104
           w0 (World ∅ 1%nat) (World (<[8200 := 1]> ∅) 1%nat)
           (World (<[8200 := 1]> ∅) 0%nat)); reflexivity.
Defined.
